(** * Server racking estimation worker (src/worker.js)

    A shallow embedding of the request handler of [src/worker.js] and of
    the estimation engine it encloses ([validateServer],
    [calculateEstimation], the [ESTIMATION_FACTORS] table), followed by the
    properties of the engine.

    JavaScript numbers are IEEE 754 binary64 values; they are modelled by
    Rocq's primitive floats, whose operations are the same binary64
    operations (round to nearest, ties to even). *)

From Stdlib Require Import Floats ZArith String List Bool Lia.
Import ListNotations.

Set Warnings "-inexact-float,-register-all".

Local Open Scope string_scope.
Local Open Scope float_scope.

(** ** JavaScript values *)

(** The body of the request is decoded by [request.json()], so the values
    that reach the engine are exactly the JSON values.  An object is the
    list of its own properties. *)
Inductive value : Type :=
| VNull
| VBool (b : bool)
| VNum (n : float)
| VStr (s : string)
| VArr (elems : list value)
| VObj (props : list (string * value)).

(** Exceptions: [Error] is what the worker throws itself with
    [new Error(message)]; [TypeError] is thrown by the language. *)
Inductive exn : Type :=
| Error (message : string)
| TypeError (message : string).

Definition message (e : exn) : string :=
  match e with
  | Error m => m
  | TypeError m => m
  end.

(** A computation that returns or throws. *)
Definition completion (A : Type) : Type := (exn + A)%type.

Definition bind {A B : Type} (c : completion A) (k : A -> completion B)
  : completion B :=
  match c with
  | inl e => inl e
  | inr a => k a
  end.

Notation "x <- c ;; k" := (bind c (fun x => k))
  (at level 61, c at next level, right associativity).
Notation "c ;;; k" := (bind c (fun _ => k))
  (at level 61, right associativity).

Definition throw {A : Type} (e : exn) : completion A := inl e.

(** [lookup k props]: the own property [k] of an object, [None] standing
    for [undefined]. *)
Fixpoint lookup {A : Type} (k : string) (props : list (string * A))
  : option A :=
  match props with
  | [] => None
  | (k', v) :: rest => if String.eqb k k' then Some v else lookup k rest
  end.

(** [server[field]] for one of the field names of [requiredFields].  An
    array has index properties and [length] only, and neither
    [Array.prototype] nor [Object.prototype] defines one of these names, so
    the access yields [undefined] on an array and on an object that does
    not own the property.  (Primitive receivers never get here: they are
    rejected by the [typeof] test before any property is read.) *)
Definition get (server : value) (field : string) : option value :=
  match server with
  | VObj props => lookup field props
  | _ => None
  end.

(** ToBoolean on a number: [0], [-0] and [NaN] are falsy. *)
Definition numberToBoolean (n : float) : bool :=
  negb (PrimFloat.eqb n 0 || is_nan n).

(** ToBoolean, on a value that may be [undefined]. *)
Definition toBoolean (v : option value) : bool :=
  match v with
  | None => false
  | Some VNull => false
  | Some (VBool b) => b
  | Some (VNum n) => numberToBoolean n
  | Some (VStr s) => negb (String.eqb s "")
  | Some (VArr _) => true
  | Some (VObj _) => true
  end.

(** [typeof v === 'object'] *)
Definition typeofObject (v : value) : bool :=
  match v with
  | VNull | VArr _ | VObj _ => true
  | _ => false
  end.

(** [v === null] *)
Definition isNull (v : value) : bool :=
  match v with
  | VNull => true
  | _ => false
  end.

(** ** Property keys

    [ESTIMATION_FACTORS.manufacturers[server.manufacturer]] converts the
    manufacturer to a property key (ToPropertyKey, that is ToString for
    JSON values).  The decimal rendering of a number is not computed:
    [KeyNumeral] stands for any string that contains the rendering of a
    number (digits, [Infinity] or [NaN]); no property of the factor table
    or of [Object.prototype] has such a name. *)
Inductive propertyKey : Type :=
| KeyString (s : string)
| KeyNumeral.

Definition keyAppend (a b : propertyKey) : propertyKey :=
  match a, b with
  | KeyString s, KeyString t => KeyString (s ++ t)
  | _, _ => KeyNumeral
  end.

(** V8's text for the TypeError of OrdinaryToPrimitive. *)
Definition cannotConvert : exn :=
  TypeError "Cannot convert object to primitive value".

(** [Array.prototype.join] with the separator [","], on the strings of
    the elements: the elements are converted from left to right, and the
    first exception ends the join. *)
Fixpoint join (parts : list (completion propertyKey))
  : completion propertyKey :=
  match parts with
  | [] => inr (KeyString "")
  | part :: rest =>
      s <- part ;;
      match rest with
      | [] => inr s
      | _ :: _ =>
          t <- join rest ;;
          inr (keyAppend s (keyAppend (KeyString ",") t))
      end
  end.

(** ToString of a JSON value.  An array is joined with [","], [null]
    elements rendering as the empty string.  A plain object renders as
    ["[object Object]"] through [Object.prototype.toString], unless it owns
    a [toString] property: a JSON value is never callable, so the method is
    skipped, [valueOf] (own and not callable, or inherited and returning
    the object itself) yields no primitive, and a TypeError is thrown. *)
Fixpoint toString (v : value) : completion propertyKey :=
  match v with
  | VNull => inr (KeyString "null")
  | VBool b => inr (KeyString (if b then "true" else "false"))
  | VNum _ => inr KeyNumeral
  | VStr s => inr (KeyString s)
  | VArr elems =>
      join (map (fun x => match x with
                          | VNull => inr (KeyString "")
                          | _ => toString x
                          end) elems)
  | VObj props =>
      match lookup "toString" props with
      | Some _ => throw cannotConvert
      | None => inr (KeyString "[object Object]")
      end
  end.

(** ** The factor table *)

Record typeFactors : Type := {
  baseTime : float;
  complexityMultiplier : float
}.

Definition rack : typeFactors :=
  {| baseTime := 2; complexityMultiplier := 1.2 |}.
Definition blade : typeFactors :=
  {| baseTime := 3; complexityMultiplier := 1.5 |}.
Definition custom : typeFactors :=
  {| baseTime := 4; complexityMultiplier := 2 |}.

Definition manufacturers : list (string * float) :=
  [("Dell", 0.9); ("HP", 1.0); ("Lenovo", 1.1); ("SuperMicro", 1.2)].

(** [ESTIMATION_FACTORS[t]] for a type name [t]. *)
Definition ESTIMATION_FACTORS (t : string) : option typeFactors :=
  lookup t [("rack", rack); ("blade", blade); ("custom", custom)].

(** [manufacturers] is an object literal, so its prototype is
    [Object.prototype] and a property read falls back on the members of
    that prototype. *)
Definition objectPrototype : list string :=
  ["constructor"; "__defineGetter__"; "__defineSetter__"; "hasOwnProperty";
   "__lookupGetter__"; "__lookupSetter__"; "isPrototypeOf";
   "propertyIsEnumerable"; "toString"; "valueOf"; "__proto__";
   "toLocaleString"].

(** What a property read on [manufacturers] yields: nothing, one of the
    numbers of the table, or a member inherited from [Object.prototype]
    (a built-in function, or the prototype object itself for
    [__proto__]). *)
Inductive property : Type :=
| PUndefined
| PNumber (n : float)
| PInherited.

Definition getManufacturer (k : propertyKey) : property :=
  match k with
  | KeyNumeral => PUndefined
  | KeyString s =>
      match lookup s manufacturers with
      | Some n => PNumber n
      | None =>
          if existsb (String.eqb s) objectPrototype then PInherited
          else PUndefined
      end
  end.

(** [p || 1] *)
Definition orOne (p : property) : property :=
  match p with
  | PUndefined => PNumber 1
  | PNumber n => if numberToBoolean n then PNumber n else PNumber 1
  | PInherited => PInherited
  end.

(** ToNumber, as applied by [*] to its operand.  A function or a plain
    object converts through its string form, which is not a numeral. *)
Definition toNumber (p : property) : float :=
  match p with
  | PUndefined => nan
  | PNumber n => n
  | PInherited => nan
  end.

(** ** The estimation engine *)

Definition requiredFields : list string :=
  ["type"; "manufacturer"; "model"; "quantity"].

(** The loop of [validateServer] over [requiredFields]. *)
Fixpoint checkFields (server : value) (fields : list string)
  : completion unit :=
  match fields with
  | [] => inr tt
  | field :: rest =>
      if negb (toBoolean (get server field))
      then throw (Error ("Missing required field: " ++ field))
      else checkFields server rest
  end.

(** [names.includes(v)] on an array of strings: the comparison is
    SameValueZero, which only a string can pass. *)
Definition includes (names : list string) (v : option value) : bool :=
  match v with
  | Some (VStr s) => existsb (String.eqb s) names
  | _ => false
  end.

Definition validateServer (server : value) : completion unit :=
  if negb (typeofObject server) || isNull server
  then throw (Error "Invalid server object")
  else
    checkFields server requiredFields ;;;
    if negb (includes ["rack"; "blade"; "custom"] (get server "type"))
    then throw (Error "Invalid server type")
    else
      match get server "quantity" with
      | Some (VNum q) =>
          if q <=? 0
          then throw (Error "Quantity must be a positive number")
          else inr tt
      | _ => throw (Error "Quantity must be a positive number")
      end.

Record serverEstimate : Type := {
  type : option value;
  manufacturer : option value;
  model : option value;
  quantity : option value;
  estimatedTime : float
}.

(** ToPropertyKey of a value that may be [undefined]. *)
Definition toPropertyKey (v : option value) : completion propertyKey :=
  match v with
  | None => inr (KeyString "undefined")
  | Some v => toString v
  end.

(** The callback that [calculateEstimation] maps over the batch, without
    the update of [totalTime], which [mapServers] threads.  The two
    branches marked unreachable stand for conversions that validation has
    excluded (see [validateServer_inr]). *)
Definition estimate (server : value) : completion serverEstimate :=
  validateServer server ;;;
  let typeFactors :=
    match get server "type" with
    | Some (VStr t) => ESTIMATION_FACTORS t
    | _ => None (* unreachable: the type is one of the three names *)
    end in
  key <- toPropertyKey (get server "manufacturer") ;;
  let manufacturerFactor := orOne (getManufacturer key) in
  match typeFactors with
  | None =>
      throw (TypeError
               "Cannot read properties of undefined (reading 'baseTime')")
  | Some typeFactors =>
      let baseTime := baseTime typeFactors in
      let quantity :=
        match get server "quantity" with
        | Some (VNum q) => q
        | _ => nan (* unreachable: the quantity is a number *)
        end in
      let serverTime :=
        baseTime * toNumber manufacturerFactor
        * complexityMultiplier typeFactors * quantity in
      inr {| type := get server "type";
             manufacturer := get server "manufacturer";
             model := get server "model";
             quantity := get server "quantity";
             estimatedTime := serverTime |}
  end.

(** [servers.map(...)] with the accumulator [totalTime] threaded through:
    an exception in the callback abandons the array built so far. *)
Fixpoint mapServers (servers : list value) (totalTime : float)
  : completion (list serverEstimate * float) :=
  match servers with
  | [] => inr ([], totalTime)
  | server :: rest =>
      e <- estimate server ;;
      r <- mapServers rest (totalTime + estimatedTime e) ;;
      inr (e :: fst r, snd r)
  end.

(** Lines 103-105: [totalTime > 20], then [totalTime > 10]. *)
Definition complexityOf (totalTime : float) : string :=
  if 20 <? totalTime then "High"
  else if 10 <? totalTime then "Medium"
  else "Low".

Record estimationResult : Type := {
  totalTime : float;
  breakdownByServer : list serverEstimate;
  complexity : string
}.

Definition calculateEstimation (servers : list value)
  : completion estimationResult :=
  r <- mapServers servers 0 ;;
  inr {| totalTime := snd r;
         breakdownByServer := fst r;
         complexity := complexityOf (snd r) |}.

(** ** The request handler *)

Inductive responseBody : Type :=
| BodyNone
| BodyText (text : string)
| BodyResult (result : estimationResult)  (* JSON.stringify(result) *)
| BodyError (error : string).             (* JSON.stringify({ error }) *)

Record response : Type := {
  status : Z;
  headers : list (string * string);
  body : responseBody
}.

Definition corsHeaders : list (string * string) :=
  [("Access-Control-Allow-Origin", "*");
   ("Access-Control-Allow-Methods", "POST,OPTIONS");
   ("Access-Control-Max-Age", "86400");
   ("Access-Control-Allow-Headers", "Content-Type")].

Definition jsonHeaders : list (string * string) :=
  corsHeaders ++ [("Content-Type", "application/json")].

(** The body of the [try] block, on the decoded request body. *)
Definition handle (servers : value) : completion estimationResult :=
  match servers with
  | VArr elems => calculateEstimation elems
  | _ => throw (Error "Input must be an array of servers")
  end.

(** [fetch], on the request method and the value [request.json()] resolves
    to. *)
Definition fetch (method : string) (json : value) : response :=
  if String.eqb method "OPTIONS"
  then {| status := 200; headers := corsHeaders; body := BodyNone |}
  else if negb (String.eqb method "POST")
  then {| status := 405; headers := corsHeaders;
          body := BodyText "Method Not Allowed" |}
  else
    match handle json with
    | inr result =>
        {| status := 200; headers := jsonHeaders; body := BodyResult result |}
    | inl error =>
        {| status := 400; headers := jsonHeaders;
           body := BodyError (message error) |}
    end.

(** ** Sample inputs *)

Definition record (t m mo q : value) : value :=
  VObj [("type", t); ("manufacturer", m); ("model", mo); ("quantity", q)].

Definition dellRack : value :=
  record (VStr "rack") (VStr "Dell") (VStr "R740") (VNum 1).

Definition unknownBlade : value :=
  record (VStr "blade") (VStr "Unknown") (VStr "X") (VNum 5).

Definition constructorRack : value :=
  record (VStr "rack") (VStr "constructor") (VStr "X") (VNum 1).

Definition zeroQuantity : value :=
  record (VStr "rack") (VStr "Dell") (VStr "R740") (VNum 0).

Definition negativeQuantity : value :=
  record (VStr "rack") (VStr "Dell") (VStr "R740") (VNum (-1)).

(** A record whose manufacturer is the JSON object [{"toString": 1}]. *)
Definition opaqueManufacturer : value :=
  record (VStr "rack") (VObj [("toString", VNum 1)]) (VStr "X") (VNum 1).

(** ** Reference notions used in the statements *)

(** The factor the specification assigns to a manufacturer name: the
    value of the table for a known manufacturer, [1] otherwise. *)
Definition manufacturerFactor (m : string) : float :=
  match lookup m manufacturers with
  | Some n => n
  | None => 1
  end.

(** The sum of the [estimatedTime] fields of a breakdown, added from [0]
    in the order of the sequence. *)
Definition sumEstimatedTime (breakdown : list serverEstimate) : float :=
  fold_left (fun acc e => acc + estimatedTime e) breakdown 0.

(** A record that the callback of [calculateEstimation] processes without
    an exception. *)
Definition estimated (server : value) : Prop :=
  exists e, estimate server = inr e.

(** A record that [validateServer] rejects. *)
Definition invalid (server : value) : Prop :=
  exists e, validateServer server = inl e.

(** The response of the [catch] block for an error message. *)
Definition errorResponse (error : string) : response :=
  {| status := 400; headers := jsonHeaders; body := BodyError error |}.

(** A record whose manufacturer, as a property key, does not name a
    member of [Object.prototype]. *)
Definition ownManufacturer (server : value) : Prop :=
  forall k,
    toPropertyKey (get server "manufacturer") = inr k ->
    getManufacturer k <> PInherited.

(** The binary64 numbers greater than 0, in the representation of
    [SpecFloat]. *)
Definition positiveSF (x : spec_float) : Prop :=
  x = S754_infinity false \/ exists m e, x = S754_finite false m e.



(** A record in the terms of the data model: an object whose type is one
    of the three names, whose manufacturer and model are present and whose
    quantity is a number greater than 0. *)
Definition validRecord (server : value) : Prop :=
  exists props q,
    server = VObj props /\
    (lookup "type" props = Some (VStr "rack") \/
     lookup "type" props = Some (VStr "blade") \/
     lookup "type" props = Some (VStr "custom")) /\
    toBoolean (lookup "manufacturer" props) = true /\
    toBoolean (lookup "model" props) = true /\
    lookup "quantity" props = Some (VNum q) /\
    (0 <? q) = true.

(** A manufacturer that is neither an array nor an object. *)
Definition primitiveManufacturer (server : value) : Prop :=
  match get server "manufacturer" with
  | Some (VArr _) | Some (VObj _) => False
  | _ => True
  end.

(** An estimate that repeats the four fields of a record. *)
Definition echoes (server : value) (e : serverEstimate) : Prop :=
  type e = get server "type" /\
  manufacturer e = get server "manufacturer" /\
  model e = get server "model" /\
  quantity e = get server "quantity".

(** The tiers in increasing order. *)
Definition tierRank (tier : string) : nat :=
  if String.eqb tier "High" then 2
  else if String.eqb tier "Medium" then 1
  else 0.

(** ** What validation establishes *)

Lemma bind_inr {A B : Type} (c : completion A) (k : A -> completion B) b :
  bind c k = inr b -> exists a, c = inr a /\ k a = inr b.
Proof.
  destruct c as [e | a]; simpl; intros H; [discriminate | eauto].
Qed.

Lemma checkFields_inr server fields :
  checkFields server fields = inr tt ->
  forall field, In field fields -> toBoolean (get server field) = true.
Proof.
  induction fields as [| f rest IH]; simpl; intros H field Hin.
  - contradiction.
  - destruct (toBoolean (get server f)) eqn:Hf; simpl in H; [| discriminate].
    destruct Hin as [<- | Hin]; auto.
Qed.

(** The first falsy field, in the order of the list, is the one
    reported. *)
Lemma checkFields_inl server fields field :
  In field fields ->
  toBoolean (get server field) = false ->
  exists f,
    In f fields /\ toBoolean (get server f) = false /\
    checkFields server fields = inl (Error ("Missing required field: " ++ f)).
Proof.
  induction fields as [| g rest IH]; simpl; intros Hin Hfalse.
  - contradiction.
  - destruct (toBoolean (get server g)) eqn:Hg; simpl.
    + destruct Hin as [-> | Hin]; [congruence |].
      destruct (IH Hin Hfalse) as (f & Hf & Hff & Hc).
      exists f; auto.
    + exists g; auto.
Qed.

Lemma includes_types v :
  includes ["rack"; "blade"; "custom"] v = true ->
  v = Some (VStr "rack") \/ v = Some (VStr "blade") \/
  v = Some (VStr "custom").
Proof.
  destruct v as [[| | | s | |] |]; simpl; try discriminate.
  destruct (String.eqb_spec s "rack") as [-> | _]; [auto |].
  destruct (String.eqb_spec s "blade") as [-> | _]; [auto |].
  destruct (String.eqb_spec s "custom") as [-> | _]; [auto |].
  discriminate.
Qed.

(** A record that passes [validateServer] is an object whose four fields
    are truthy, whose type is one of the three names and whose quantity is
    a number that is not [<= 0]. *)
Lemma validateServer_inr server u :
  validateServer server = inr u ->
  exists props q,
    server = VObj props /\
    (lookup "type" props = Some (VStr "rack") \/
     lookup "type" props = Some (VStr "blade") \/
     lookup "type" props = Some (VStr "custom")) /\
    toBoolean (lookup "manufacturer" props) = true /\
    toBoolean (lookup "model" props) = true /\
    lookup "quantity" props = Some (VNum q) /\
    (q <=? 0) = false /\
    numberToBoolean q = true.
Proof.
  unfold validateServer.
  destruct (negb (typeofObject server) || isNull server) eqn:Hobj;
    [discriminate |].
  intros H. apply bind_inr in H as ([] & Hfields & H).
  assert (Hall := checkFields_inr _ _ Hfields).
  destruct server as [| | | | elems | props]; simpl in Hobj;
    try discriminate.
  destruct (includes _ (get (VObj props) "type")) eqn:Hty;
    simpl in H; [| discriminate].
  apply includes_types in Hty.
  assert (Hq := Hall "quantity"). simpl in Hq, H, Hty.
  destruct (lookup "quantity" props) as [[| | q | | |] |] eqn:Hlq;
    try discriminate.
  destruct (q <=? 0) eqn:Hle; [discriminate |].
  exists props, q. repeat split; auto.
  - apply (Hall "manufacturer"). simpl; auto.
  - apply (Hall "model"). simpl; auto.
  - apply Hq. simpl; auto.
Qed.

(** ** Exceptions of the callback *)

Lemma join_inl parts e :
  join parts = inl e -> In (inl e) parts.
Proof.
  induction parts as [| part rest IH]; simpl; [discriminate |].
  destruct part as [e' | s]; simpl.
  - intros H. injection H as <-. auto.
  - destruct rest as [| part' rest']; [discriminate |].
    destruct (join (part' :: rest')) as [e' | t]; simpl;
      [| discriminate].
    intros H. injection H as <-. right. apply IH. reflexivity.
Qed.

(** The conversion of a JSON value to a property key fails in one way
    only. *)
Lemma toString_inl :
  forall v e, toString v = inl e -> e = cannotConvert.
Proof.
  fix IH 1. intros v e. destruct v as [| b | n | s | elems | props];
    simpl; try discriminate.
  - intros H. apply join_inl in H.
    induction elems as [| x rest IHrest]; simpl in H; [contradiction |].
    destruct H as [H | H]; [| exact (IHrest H)].
    apply (IH x). destruct x; try discriminate; exact H.
  - destruct (lookup "toString" props); [| discriminate].
    intros H. injection H as <-. reflexivity.
Qed.

(** The callback fails either in [validateServer], or, on a validated
    record, in the conversion of the manufacturer to a property key. *)
Lemma estimate_inl server e :
  estimate server = inl e ->
  validateServer server = inl e \/
  validateServer server = inr tt /\ e = cannotConvert.
Proof.
  unfold estimate.
  destruct (validateServer server) as [e' | []] eqn:Hv; cbn [bind].
  - intros H. injection H as <-. left; reflexivity.
  - intros H. right. split; [reflexivity |].
    destruct (validateServer_inr _ _ Hv)
      as (props & q & -> & Hty & Hm & _ & Hq & _ & _).
    unfold get in H. rewrite Hq in H.
    destruct (toPropertyKey (lookup "manufacturer" props))
      as [e' | k] eqn:Hk; cbn [bind] in H.
    + injection H as <-.
      destruct (lookup "manufacturer" props) as [m |];
        [apply (toString_inl _ _ Hk) | discriminate].
    + destruct Hty as [Ht | [Ht | Ht]]; rewrite Ht in H; discriminate.
Qed.

(** ** Comparisons of binary64 numbers *)

Lemma SFcompare_antisym x y c :
  SFcompare x y = Some c -> SFcompare y x = Some (CompOpp c).
Proof.
  destruct x as [sx | sx | | sx mx ex], y as [sy | sy | | sy my ey];
    simpl; try discriminate; intros H; injection H as <-;
    try (destruct sx; reflexivity); try (destruct sy; reflexivity);
    try (destruct sx, sy; reflexivity).
  f_equal.
  assert (Hm : Pos.compare_cont Eq my mx
               = CompOpp (Pos.compare_cont Eq mx my)).
  { rewrite (Pos.compare_cont_antisym mx my Eq). reflexivity. }
  rewrite (Z.compare_antisym ex ey), Hm.
  destruct sx, sy, (ex ?= ey)%Z, (Pos.compare_cont Eq mx my); reflexivity.
Qed.

(** [x <= y] excludes [y < x]. *)
Lemma leb_true_ltb_false x y : (x <=? y) = true -> (y <? x) = false.
Proof.
  rewrite leb_spec, ltb_spec. unfold SFleb, SFltb.
  destruct (SFcompare (Prim2SF x) (Prim2SF y)) as [c |] eqn:Hc.
  - rewrite (SFcompare_antisym _ _ _ Hc).
    destruct c; simpl; intros H; [reflexivity | reflexivity | discriminate].
  - discriminate.
Qed.

(** ** Products and sums of positive binary64 numbers

    The operations of primitive floats are specified by the functions of
    [SpecFloat] on [spec_float]; the lemmas below follow the rounding of
    [binary_round_aux] far enough to see that it keeps a positive
    mantissa. *)

Section Binary64.

Local Open Scope Z_scope.

Lemma digits2_pos_bounds m :
  2 ^ (Zpos (digits2_pos m) - 1) <= Zpos m < 2 ^ Zpos (digits2_pos m).
Proof.
  induction m as [p IH | p IH |]; simpl digits2_pos.
  - rewrite Pos2Z.inj_succ.
    replace (Z.succ (Zpos (digits2_pos p)) - 1)
      with (Z.succ (Zpos (digits2_pos p) - 1)) by lia.
    rewrite !Z.pow_succ_r by lia. lia.
  - rewrite Pos2Z.inj_succ.
    replace (Z.succ (Zpos (digits2_pos p)) - 1)
      with (Z.succ (Zpos (digits2_pos p) - 1)) by lia.
    rewrite !Z.pow_succ_r by lia. lia.
  - simpl. lia.
Qed.

Lemma shr_1_m mrs :
  0 <= shr_m mrs -> shr_m (shr_1 mrs) = shr_m mrs / 2.
Proof.
  destruct mrs as [m r s]. simpl. intros Hm.
  destruct m as [| [p | p |] | p]; simpl.
  - reflexivity.
  - apply (Z.div_unique_pos _ 2 _ 1); lia.
  - apply (Z.div_unique_pos _ 2 _ 0); lia.
  - reflexivity.
  - lia.
Qed.

Lemma iter_shr_1_m p :
  forall mrs, 0 <= shr_m mrs ->
    shr_m (SpecFloat.iter_pos shr_1 p mrs) = shr_m mrs / 2 ^ Zpos p.
Proof.
  induction p as [p IH | p IH |]; intros mrs Hm; simpl SpecFloat.iter_pos.
  - assert (H1 : 0 <= shr_m (shr_1 mrs)).
    { rewrite shr_1_m by assumption. apply Z.div_pos; lia. }
    assert (H2 : 0 <= shr_m (SpecFloat.iter_pos shr_1 p (shr_1 mrs))).
    { rewrite IH by assumption. apply Z.div_pos; [lia |].
      apply Z.pow_pos_nonneg; lia. }
    rewrite IH, IH, shr_1_m by assumption.
    assert (E : 2 ^ Zpos p~1 = 2 * (2 ^ Zpos p * 2 ^ Zpos p)).
    { rewrite <- Z.pow_add_r, <- Z.pow_succ_r by lia. f_equal. lia. }
    assert (Hp : 0 < 2 ^ Zpos p) by (apply Z.pow_pos_nonneg; lia).
    rewrite E, !Z.div_div by lia. reflexivity.
  - assert (H2 : 0 <= shr_m (SpecFloat.iter_pos shr_1 p mrs)).
    { rewrite IH by assumption. apply Z.div_pos; [lia |].
      apply Z.pow_pos_nonneg; lia. }
    rewrite IH, IH by assumption.
    assert (E : 2 ^ Zpos p~0 = 2 ^ Zpos p * 2 ^ Zpos p).
    { rewrite <- Z.pow_add_r by lia. f_equal. lia. }
    assert (Hp : 0 < 2 ^ Zpos p) by (apply Z.pow_pos_nonneg; lia).
    rewrite E, Z.div_div by lia. reflexivity.
  - rewrite shr_1_m by assumption. reflexivity.
Qed.

(** Shifting right by fewer places than the number has digits leaves a
    positive mantissa. *)
Lemma shr_m_pos m r s e n :
  n < Zpos (digits2_pos m) ->
  0 < shr_m (fst (shr (Build_shr_record (Zpos m) r s) e n)).
Proof.
  intros Hn. unfold shr. destruct n as [| p | p]; simpl fst; simpl shr_m;
    try lia.
  rewrite iter_shr_1_m by (simpl; lia). simpl shr_m.
  apply Z.div_str_pos. split; [apply Z.pow_pos_nonneg; lia |].
  destruct (digits2_pos_bounds m) as [Hlo _].
  apply Z.le_trans with (2 := Hlo).
  apply Z.pow_le_mono_r; lia.
Qed.

Lemma shr_e mrs e n :
  e <= snd (shr mrs e n) /\ (0 < n -> snd (shr mrs e n) = e + n).
Proof.
  unfold shr. destruct n; simpl; lia.
Qed.

Lemma round_nearest_even_pos m l : 0 < m -> 0 < round_nearest_even m l.
Proof.
  intros Hm. unfold round_nearest_even.
  destruct l as [| []]; try lia. destruct (Z.even m); lia.
Qed.

Lemma shr_fexp_positive m e l :
  -1074 < Zpos (digits2_pos m) + e ->
  0 < shr_m (fst (shr_fexp prec emax (Zpos m) e l)) /\
  -1074 <= snd (shr_fexp prec emax (Zpos m) e l).
Proof.
  intros Hd. unfold shr_fexp. simpl Zdigits2.
  set (n := fexp prec emax (Zpos (digits2_pos m) + e) - e).
  assert (Hn : n < Zpos (digits2_pos m)).
  { unfold n, fexp, emin, prec, emax. lia. }
  assert (Hrec : exists r s,
             shr_record_of_loc (Zpos m) l = Build_shr_record (Zpos m) r s).
  { destruct l as [| []]; simpl; eauto. }
  destruct Hrec as (r & s & ->). split.
  - apply shr_m_pos, Hn.
  - destruct (shr_e (Build_shr_record (Zpos m) r s) e n) as [He He'].
    destruct (Z.ltb_spec 0 n) as [Hpos | Hneg].
    + rewrite (He' Hpos). unfold n, fexp, emin, prec, emax. lia.
    + unfold n, fexp, emin, prec, emax in Hneg. lia.
Qed.

Lemma binary_round_aux_positive m e :
  -1074 < Zpos (digits2_pos m) + e ->
  positiveSF (binary_round_aux prec emax false (Zpos m) e loc_Exact).
Proof.
  intros Hd. unfold binary_round_aux.
  destruct (shr_fexp_positive m e loc_Exact Hd) as [Hm1 He1].
  destruct (shr_fexp prec emax (Zpos m) e loc_Exact) as [mrs1 e1].
  simpl in Hm1, He1.
  pose proof (round_nearest_even_pos _ (loc_of_shr_record mrs1) Hm1) as Hm2.
  destruct (round_nearest_even (shr_m mrs1) (loc_of_shr_record mrs1))
    as [| m2 | m2]; try lia.
  assert (Hd2 : -1074 < Zpos (digits2_pos m2) + e1) by lia.
  destruct (shr_fexp_positive m2 e1 loc_Exact Hd2) as [Hm3 _].
  destruct (shr_fexp prec emax (Zpos m2) e1 loc_Exact) as [mrs3 e3].
  simpl in Hm3.
  destruct (shr_m mrs3) as [| m3 | m3]; try lia.
  destruct (e3 <=? emax - prec); [right; eauto | left; reflexivity].
Qed.

Lemma digits2_pos_mul a b :
  Zpos (digits2_pos a) + Zpos (digits2_pos b) - 1
  <= Zpos (digits2_pos (a * b)).
Proof.
  destruct (digits2_pos_bounds a) as [Ha _].
  destruct (digits2_pos_bounds b) as [Hb _].
  destruct (digits2_pos_bounds (a * b)) as [_ Hab].
  rewrite Pos2Z.inj_mul in Hab.
  assert (H : 2 ^ (Zpos (digits2_pos a) - 1 + (Zpos (digits2_pos b) - 1))
              < 2 ^ Zpos (digits2_pos (a * b))).
  { rewrite Z.pow_add_r by lia.
    apply Z.le_lt_trans with (2 := Hab).
    apply Z.mul_le_mono_nonneg; try assumption;
      apply Z.pow_nonneg; lia. }
  apply Z.pow_lt_mono_r_iff in H; lia.
Qed.

(** A valid finite number has an exponent of at least -1074. *)
Lemma bounded_emin m e :
  bounded prec emax m e = true ->
  -1074 <= e /\ (-52 <= e -> Zpos (digits2_pos m) = 53).
Proof.
  unfold bounded, canonical_mantissa, fexp, emin, prec, emax.
  intros H. apply andb_prop in H as [H _]. apply Z.eqb_eq in H. lia.
Qed.

Local Open Scope float_scope.

Lemma positive_spec x : (0 <? x) = true <-> positiveSF (Prim2SF x).
Proof.
  rewrite ltb_spec. change (Prim2SF 0) with (S754_zero false).
  unfold positiveSF, SFltb, SFcompare.
  destruct (Prim2SF x) as [s | [|] | | [|] m e]; split;
    try discriminate; try reflexivity; auto;
    try (intros [H | (m' & e' & H)]; discriminate); eauto.
Qed.

Lemma positive_cases x :
  (0 <? x) = true ->
  Prim2SF x = S754_infinity false \/
  exists m e, Prim2SF x = S754_finite false m e /\ (-1074 <= e)%Z.
Proof.
  intros H. apply positive_spec in H as [H | (m & e & H)]; [auto |].
  right. exists m, e. split; [exact H |].
  pose proof (Prim2SF_valid x) as Hv. rewrite H in Hv.
  apply bounded_emin in Hv. lia.
Qed.

Lemma atLeastOne_cases c :
  (1 <=? c) = true ->
  Prim2SF c = S754_infinity false \/
  exists m e, Prim2SF c = S754_finite false m e /\
              (1 <= Zpos (digits2_pos m) + e)%Z.
Proof.
  rewrite leb_spec.
  change (Prim2SF 1) with (S754_finite false 4503599627370496 (-52)).
  pose proof (Prim2SF_valid c) as Hv.
  unfold SFleb, SFcompare.
  destruct (Prim2SF c) as [s | [|] | | [|] m e]; try discriminate; auto.
  intros H. right. exists m, e. split; [reflexivity |].
  apply bounded_emin in Hv as [_ Hv].
  destruct (-52 ?= e)%Z eqn:He; try discriminate.
  - apply Z.compare_eq in He. lia.
  - change (-52 < e)%Z in He. lia.
Qed.

(** The product of a number that is at least 1 and of a positive number
    is positive: it does not underflow to zero. *)
Lemma mul_positive c q :
  (1 <=? c) = true -> (0 <? q) = true -> (0 <? c * q) = true.
Proof.
  intros Hc Hq. apply positive_spec. rewrite mul_spec.
  apply atLeastOne_cases in Hc as [-> | (mc & ec & -> & Hc)];
    apply positive_cases in Hq as [-> | (m & e & -> & He)];
    unfold SF64mul, SFmul; simpl xorb.
  - left; reflexivity.
  - left; reflexivity.
  - left; reflexivity.
  - apply binary_round_aux_positive.
    pose proof (digits2_pos_mul mc m).
    assert (1 <= Zpos (digits2_pos m))%Z by lia. lia.
Qed.

(** Adding a positive number to a number that is at least 0 gives a
    positive number. *)
Lemma add_positive x y :
  (0 <=? x) = true -> (0 <? y) = true -> (0 <? x + y) = true.
Proof.
  intros Hx Hy. apply positive_spec. rewrite add_spec.
  rewrite leb_spec in Hx. change (Prim2SF 0) with (S754_zero false) in Hx.
  pose proof (Prim2SF_valid x) as Hvx.
  apply positive_cases in Hy as [Hy | (my & ey & Hy & Hey)]; rewrite Hy;
    unfold SFleb, SFcompare in Hx;
    destruct (Prim2SF x) as [sx | [|] | | [|] mx ex]; try discriminate;
    unfold SF64add, SFadd;
    try (left; reflexivity); try (right; eauto; fail).
  apply bounded_emin in Hvx as [Hex _].
  set (ez := Z.min ex ey). unfold cond_Zopp.
  unfold binary_normalize. simpl Z.add.
  unfold binary_round.
  set (s := (fst (shl_align mx ex ez) + fst (shl_align my ey ez))%positive).
  assert (Hez : (-1074 <= ez)%Z) by (unfold ez; lia).
  assert (Hcases :
            (-1074 < Zpos (digits2_pos
                             (fst (shl_align s ez
                                     (fexp prec emax
                                        (Zpos (digits2_pos s) + ez)))))
                     + snd (shl_align s ez
                              (fexp prec emax (Zpos (digits2_pos s) + ez))))%Z).
  { unfold shl_align.
    destruct (fexp prec emax (Zpos (digits2_pos s) + ez) - ez)%Z eqn:Hd;
      simpl fst; simpl snd; try lia.
    unfold fexp, emin, prec, emax. lia. }
  destruct (shl_align s ez (fexp prec emax (Zpos (digits2_pos s) + ez)))
    as [mz ez'].
  apply binary_round_aux_positive. exact Hcases.
Qed.

(** A number that passes the two tests of [validateServer] on the
    quantity is greater than 0. *)
Lemma quantity_positive q :
  numberToBoolean q = true -> (q <=? 0) = false -> (0 <? q) = true.
Proof.
  unfold numberToBoolean, is_nan.
  rewrite leb_spec, ltb_spec, !FloatAxioms.eqb_spec.
  change (Prim2SF 0) with (S754_zero false).
  unfold SFeqb, SFleb, SFltb, SFcompare.
  destruct (Prim2SF q) as [s | [|] | | [|] m e]; simpl;
    try discriminate; reflexivity.
Qed.

Lemma ltb_leb_zero x : (0 <? x) = true -> (0 <=? x) = true.
Proof.
  rewrite leb_spec, ltb_spec. unfold SFleb, SFltb.
  destruct (SFcompare (Prim2SF 0) (Prim2SF x)) as [[| |] |];
    try discriminate; reflexivity.
Qed.

End Binary64.

(** ** The batch loop *)

Lemma estimate_invalid server e :
  validateServer server = inl e -> estimate server = inl e.
Proof.
  intros H. unfold estimate. rewrite H. reflexivity.
Qed.

Lemma mapServers_first_failure pre server post e :
  Forall estimated pre ->
  estimate server = inl e ->
  forall total, mapServers (pre ++ server :: post) total = inl e.
Proof.
  intros Hpre Hs.
  induction Hpre as [| x pre [est Hx] _ IH]; intros total; simpl.
  - rewrite Hs. reflexivity.
  - rewrite Hx. simpl. rewrite IH. reflexivity.
Qed.

Lemma mapServers_invalid servers :
  Exists invalid servers ->
  forall total, exists e, mapServers servers total = inl e.
Proof.
  induction servers as [| x rest IH]; intros Hex total.
  - inversion Hex.
  - simpl. destruct (estimate x) as [e | est] eqn:Hx; simpl.
    + exists e; reflexivity.
    + apply Exists_cons in Hex as [[e Hinv] | Hrest].
      * rewrite (estimate_invalid _ _ Hinv) in Hx. discriminate.
      * destruct (IH Hrest (total + estimatedTime est)) as [e He].
        exists e. rewrite He. reflexivity.
Qed.

Lemma mapServers_inl servers :
  forall total e,
    mapServers servers total = inl e ->
    exists pre server post,
      servers = (pre ++ server :: post)%list /\
      Forall estimated pre /\
      estimate server = inl e.
Proof.
  induction servers as [| x rest IH]; simpl; intros total e H.
  - discriminate.
  - destruct (estimate x) as [e' | est] eqn:Hx; cbn [bind] in H.
    + injection H as <-. exists [], x, rest. repeat split; auto.
    + destruct (mapServers rest (total + estimatedTime est))
        as [e' | r] eqn:Hrest; cbn [bind] in H; [| discriminate].
      injection H as <-.
      destruct (IH _ _ Hrest) as (pre & s & post & -> & Hpre & Hs).
      exists (x :: pre), s, post. repeat split; auto.
      constructor; [exists est; exact Hx | exact Hpre].
Qed.

Lemma mapServers_total servers :
  forall total breakdown total',
    mapServers servers total = inr (breakdown, total') ->
    total' = fold_left (fun acc e => acc + estimatedTime e) breakdown total.
Proof.
  induction servers as [| x rest IH]; simpl; intros total breakdown total' H.
  - injection H as <- <-. reflexivity.
  - apply bind_inr in H as (est & _ & H).
    apply bind_inr in H as ([l t] & Hrest & H).
    injection H as <- <-. simpl.
    apply (IH _ _ _ Hrest).
Qed.

Lemma fetch_error servers e :
  calculateEstimation servers = inl e ->
  fetch "POST" (VArr servers) = errorResponse (message e).
Proof.
  intros H. unfold fetch, handle. simpl. rewrite H. reflexivity.
Qed.

Lemma calculateEstimation_first_failure pre server post e :
  Forall estimated pre ->
  estimate server = inl e ->
  calculateEstimation (pre ++ server :: post) = inl e.
Proof.
  intros Hpre Hs. unfold calculateEstimation.
  rewrite (mapServers_first_failure _ _ _ _ Hpre Hs). reflexivity.
Qed.

(** ** The time of one record *)

Lemma manufacturers_truthy m n :
  lookup m manufacturers = Some n -> numberToBoolean n = true.
Proof.
  unfold manufacturers. simpl.
  repeat (destruct (String.eqb m _);
          [intros H; injection H as <-; reflexivity |]).
  discriminate.
Qed.

(** The code's factor, [manufacturers[m] || 1] converted to a number,
    agrees with the specified one on every name that [Object.prototype]
    does not define. *)
Lemma manufacturerFactor_own m :
  existsb (String.eqb m) objectPrototype = false ->
  toNumber (orOne (getManufacturer (KeyString m))) = manufacturerFactor m.
Proof.
  intros Hproto. unfold getManufacturer, manufacturerFactor.
  destruct (lookup m manufacturers) as [n |] eqn:Hn.
  - unfold orOne. rewrite (manufacturers_truthy _ _ Hn). reflexivity.
  - rewrite Hproto. reflexivity.
Qed.

(** On a record that passes validation, whose manufacturer is a string
    that does not name a member of [Object.prototype], the callback
    returns, and the estimated time is the product of the four factors,
    multiplied from left to right. *)
Lemma estimate_formula props m :
  validateServer (VObj props) = inr tt ->
  lookup "manufacturer" props = Some (VStr m) ->
  existsb (String.eqb m) objectPrototype = false ->
  exists t tf q e,
    lookup "type" props = Some (VStr t) /\
    ESTIMATION_FACTORS t = Some tf /\
    lookup "quantity" props = Some (VNum q) /\
    estimate (VObj props) = inr e /\
    estimatedTime e
    = baseTime tf * manufacturerFactor m * complexityMultiplier tf * q.
Proof.
  intros Hv Hm Hproto.
  destruct (validateServer_inr _ _ Hv)
    as (props' & q & Heq & Hty & _ & _ & Hq & _ & _).
  injection Heq as <-.
  assert (Htf : exists t tf,
             lookup "type" props = Some (VStr t) /\
             ESTIMATION_FACTORS t = Some tf).
  { destruct Hty as [H | [H | H]]; rewrite H;
      do 2 eexists; split; reflexivity. }
  destruct Htf as (t & tf & Ht & Htf).
  exists t, tf, q. eexists. repeat split; try eassumption.
  - unfold estimate. rewrite Hv. cbn [bind]. unfold get.
    rewrite Ht, Htf, Hm, Hq. cbn [toPropertyKey toString bind].
    reflexivity.
  - cbn [estimatedTime].
    rewrite <- (manufacturerFactor_own _ Hproto). reflexivity.
Qed.

(** C1 (fails on the code).  The record
    [{type: "rack", manufacturer: "constructor", model: "X", quantity: 1}]
    passes validation; "constructor" is not in the manufacturer table, so
    its factor should be 1 and the time [2 * 1 * 1.2 * 1]; the property
    read finds the inherited [Object.prototype.constructor] instead, which
    is truthy and converts to NaN, and the estimated time is NaN. *)
Theorem estimate_inherited_manufacturer :
  validateServer constructorRack = inr tt /\
  lookup "constructor" manufacturers = None /\
  manufacturerFactor "constructor" = 1 /\
  exists e,
    estimate constructorRack = inr e /\
    estimatedTime e = nan /\
    estimatedTime e
    <> baseTime rack * manufacturerFactor "constructor"
       * complexityMultiplier rack * 1.
Proof.
  repeat split.
  eexists. split; [reflexivity |]. split; [reflexivity |].
  intros H. apply (f_equal is_nan) in H. vm_compute in H. discriminate.
Qed.

(** ** Complexity tiers *)

(** C2.  The tier is computed from [totalTime] alone: above 20 it is
    High, above 10 and at most 20 it is Medium, at most 10 it is Low; 20
    is Medium and 10 is Low. *)
Theorem complexity_boundaries (t : float) :
  ((20 <? t) = true -> complexityOf t = "High") /\
  ((10 <? t) = true -> (t <=? 20) = true -> complexityOf t = "Medium") /\
  ((t <=? 10) = true -> complexityOf t = "Low") /\
  complexityOf 20 = "Medium" /\
  complexityOf 10 = "Low" /\
  (forall servers r,
     calculateEstimation servers = inr r ->
     complexity r = complexityOf (totalTime r)).
Proof.
  unfold complexityOf. repeat split.
  - intros ->. reflexivity.
  - intros H10 H20. rewrite (leb_true_ltb_false _ _ H20), H10. reflexivity.
  - intros H10.
    assert (H20 : (t <=? 20) = true).
    { assert (E10 : Prim2SF 10 = S754_finite false 5629499534213120 (-49))
        by reflexivity.
      assert (E20 : Prim2SF 20 = S754_finite false 5629499534213120 (-48))
        by reflexivity.
      rewrite leb_spec in *. rewrite E10 in H10. rewrite E20.
      unfold SFleb, SFcompare in *.
      destruct (Prim2SF t) as [s | s | | s m e];
        try discriminate; try reflexivity.
      - destruct s; [reflexivity | discriminate].
      - destruct s; [reflexivity |].
        assert (He : (e ?= -48)%Z = Lt).
        { apply Z.compare_lt_iff.
          destruct (e ?= -49)%Z eqn:He; try discriminate.
          + apply Z.compare_eq in He. lia.
          + change (e < -49)%Z in He. lia. }
        rewrite He. reflexivity. }
    rewrite (leb_true_ltb_false _ _ H20), (leb_true_ltb_false _ _ H10).
    reflexivity.
  - intros servers r H. unfold calculateEstimation in H.
    apply bind_inr in H as (p & _ & H). injection H as <-. reflexivity.
Qed.

Lemma complexity_boundaries_witness :
  complexityOf 20.0001 = "High" /\
  complexityOf 10.0001 = "Medium" /\
  complexityOf 2.16 = "Low" /\
  (forall r,
     calculateEstimation [unknownBlade] = inr r ->
     complexity r = complexityOf (totalTime r)).
Proof.
  split; [apply (proj1 (complexity_boundaries 20.0001)); reflexivity |].
  split; [apply (proj1 (proj2 (complexity_boundaries 10.0001)));
          reflexivity |].
  split; [apply (proj1 (proj2 (proj2 (complexity_boundaries 2.16))));
          reflexivity |].
  apply (proj2 (proj2 (proj2 (proj2 (proj2 (complexity_boundaries 0)))))).
Defined.

(** ** Failure of a batch *)

(** C3 as stated does not hold: in the batch made of [opaqueManufacturer]
    and the empty object [{}], the second record is invalid (its type is
    missing) and the first passes validation, yet the batch fails with
    the TypeError raised by the property read on the first record, not
    with the validation error of the second. *)
Lemma invalid_record_error_counterexample :
  ~ (forall pre server post e,
       Forall (fun x => validateServer x = inr tt) pre ->
       validateServer server = inl e ->
       calculateEstimation (pre ++ server :: post) = inl e).
Proof.
  intros H.
  specialize (H [opaqueManufacturer] (VObj []) []
                (Error "Missing required field: type")).
  simpl in H.
  assert (Hpre : Forall (fun x => validateServer x = inr tt)
                   [opaqueManufacturer]) by (repeat constructor).
  specialize (H Hpre eq_refl). vm_compute in H. discriminate.
Qed.

(** C3 (amended).  A batch that contains an invalid record fails with a
    single error and yields no result: the error is the one raised by the
    first record whose processing fails, either its validation error or,
    for a record that passes validation, the TypeError of the manufacturer
    lookup; the response is the error envelope with that error's message
    only.  When every record before an invalid one is processed without
    an exception, the error is the validation error of that record. *)
Theorem invalid_record_fails_batch :
  (forall servers,
     Exists invalid servers ->
     exists pre server post e,
       servers = (pre ++ server :: post)%list /\
       Forall estimated pre /\
       (validateServer server = inl e \/
        validateServer server = inr tt /\ e = cannotConvert) /\
       calculateEstimation servers = inl e /\
       fetch "POST" (VArr servers) = errorResponse (message e)) /\
  (forall pre server post e,
     Forall estimated pre ->
     validateServer server = inl e ->
     calculateEstimation (pre ++ server :: post) = inl e /\
     fetch "POST" (VArr (pre ++ server :: post))
     = errorResponse (message e)).
Proof.
  split.
  - intros servers Hex.
    destruct (mapServers_invalid _ Hex 0) as [e He].
    destruct (mapServers_inl _ _ _ He) as (pre & s & post & Heq & Hpre & Hs).
    assert (Hc : calculateEstimation servers = inl e).
    { unfold calculateEstimation. rewrite He. reflexivity. }
    exists pre, s, post, e.
    repeat split; auto using estimate_inl, fetch_error.
  - intros pre server post e Hpre Hinv.
    assert (Hc : calculateEstimation (pre ++ server :: post) = inl e).
    { apply calculateEstimation_first_failure;
        [exact Hpre | apply estimate_invalid, Hinv]. }
    split; [exact Hc | apply fetch_error, Hc].
Qed.

Lemma invalid_record_fails_batch_witness :
  (exists pre server post e,
     [dellRack; unknownBlade; negativeQuantity]
     = (pre ++ server :: post)%list /\
     Forall estimated pre /\
     (validateServer server = inl e \/
      validateServer server = inr tt /\ e = cannotConvert) /\
     calculateEstimation [dellRack; unknownBlade; negativeQuantity] = inl e /\
     fetch "POST" (VArr [dellRack; unknownBlade; negativeQuantity])
     = errorResponse (message e)) /\
  (calculateEstimation
     ([dellRack; unknownBlade] ++ VObj [("type", VStr "rack")] :: [dellRack])
   = inl (Error "Missing required field: manufacturer") /\
   fetch "POST"
     (VArr ([dellRack; unknownBlade] ++
            VObj [("type", VStr "rack")] :: [dellRack]))
   = errorResponse (message (Error "Missing required field: manufacturer"))).
Proof.
  split.
  - apply (proj1 invalid_record_fails_batch).
    apply Exists_cons_tl, Exists_cons_tl, Exists_cons_hd.
    exists (Error "Quantity must be a positive number"). reflexivity.
  - apply (proj2 invalid_record_fails_batch).
    + repeat constructor; eexists; reflexivity.
    + reflexivity.
Defined.

(** ** Total time *)

(** C4.  On success, [totalTime] is the sum of the [estimatedTime] fields
    of [breakdownByServer]. *)
Theorem totalTime_is_sum servers r :
  calculateEstimation servers = inr r ->
  totalTime r = sumEstimatedTime (breakdownByServer r).
Proof.
  unfold calculateEstimation. intros H.
  apply bind_inr in H as ([breakdown total] & Hmap & H).
  injection H as <-. simpl.
  apply (mapServers_total _ _ _ _ Hmap).
Qed.

Lemma totalTime_is_sum_witness :
  exists r,
    calculateEstimation [dellRack; unknownBlade] = inr r /\
    totalTime r = sumEstimatedTime (breakdownByServer r).
Proof.
  eexists. split; [reflexivity |].
  apply (totalTime_is_sum [dellRack; unknownBlade]). reflexivity.
Defined.

(** ** Missing fields *)

(** C5.  On an object in which one of the four required fields is absent
    or falsy, validation fails with the message "Missing required field: "
    followed by the name of a required field that is missing, the first
    one in the order type, manufacturer, model, quantity; it is the given
    field when no other is missing. *)
Theorem missing_field_rejected server field :
  typeofObject server = true ->
  isNull server = false ->
  In field requiredFields ->
  toBoolean (get server field) = false ->
  exists f,
    In f requiredFields /\
    toBoolean (get server f) = false /\
    validateServer server = inl (Error ("Missing required field: " ++ f)) /\
    ((forall g, In g requiredFields -> g <> field ->
                toBoolean (get server g) = true) -> f = field).
Proof.
  intros Hobj Hnull Hin Hfalse.
  destruct (checkFields_inl server requiredFields field Hin Hfalse)
    as (f & Hf & Hff & Hc).
  exists f. repeat split; auto.
  - unfold validateServer. rewrite Hobj, Hnull. cbn [negb orb].
    rewrite Hc. reflexivity.
  - intros Hothers. destruct (string_dec f field) as [| Hne]; [assumption |].
    rewrite (Hothers f Hf Hne) in Hff. discriminate.
Qed.

Lemma missing_field_rejected_witness :
  exists f,
    In f requiredFields /\
    toBoolean (get (VObj [("type", VStr "rack"); ("manufacturer", VStr "");
                          ("model", VNull)]) f) = false /\
    validateServer (VObj [("type", VStr "rack"); ("manufacturer", VStr "");
                          ("model", VNull)])
    = inl (Error ("Missing required field: " ++ f)) /\
    ((forall g, In g requiredFields -> g <> "quantity" ->
                toBoolean
                  (get (VObj [("type", VStr "rack");
                              ("manufacturer", VStr ""); ("model", VNull)]) g)
                = true) -> f = "quantity").
Proof.
  apply (missing_field_rejected
           (VObj [("type", VStr "rack"); ("manufacturer", VStr "");
                  ("model", VNull)]) "quantity").
  - reflexivity.
  - reflexivity.
  - simpl. auto.
  - reflexivity.
Defined.

(** ** Quantity *)

(** C6 as stated does not hold: a record whose quantity is 0, with the
    other fields present and valid, is rejected by the required-field
    loop, not by the positivity test. *)
Lemma zero_quantity_counterexample :
  validateServer zeroQuantity = inl (Error "Missing required field: quantity")
  /\ validateServer zeroQuantity
     <> inl (Error "Quantity must be a positive number").
Proof.
  split; [reflexivity | discriminate].
Qed.

(** C6 (amended).  A record whose quantity is the number 0 (or -0), with
    type, manufacturer and model present, is rejected with the message
    "Missing required field: quantity"; the positivity test is not
    reached. *)
Theorem zero_quantity_missing props q :
  toBoolean (lookup "type" props) = true ->
  toBoolean (lookup "manufacturer" props) = true ->
  toBoolean (lookup "model" props) = true ->
  lookup "quantity" props = Some (VNum q) ->
  PrimFloat.eqb q 0 = true ->
  validateServer (VObj props)
  = inl (Error "Missing required field: quantity").
Proof.
  intros Ht Hm Hmo Hq Hz.
  unfold validateServer, requiredFields, checkFields, get.
  cbn [typeofObject isNull negb orb].
  rewrite Ht, Hm, Hmo, Hq. cbn [toBoolean negb].
  unfold numberToBoolean. rewrite Hz. reflexivity.
Qed.

Lemma zero_quantity_missing_witness :
  validateServer zeroQuantity
  = inl (Error "Missing required field: quantity").
Proof.
  apply (zero_quantity_missing
           [("type", VStr "rack"); ("manufacturer", VStr "Dell");
            ("model", VStr "R740"); ("quantity", VNum 0)] 0);
    reflexivity.
Defined.

(** C7.  A record of type "rack" with manufacturer and model present and
    quantity -1 or "five" is rejected with "Quantity must be a positive
    number"; a batch in which the records before it are processed without
    an exception fails with that error. *)
Theorem bad_quantity_rejected props pre post :
  lookup "type" props = Some (VStr "rack") ->
  toBoolean (lookup "manufacturer" props) = true ->
  toBoolean (lookup "model" props) = true ->
  lookup "quantity" props = Some (VNum (-1)) \/
  lookup "quantity" props = Some (VStr "five") ->
  Forall estimated pre ->
  validateServer (VObj props)
  = inl (Error "Quantity must be a positive number") /\
  calculateEstimation (pre ++ VObj props :: post)
  = inl (Error "Quantity must be a positive number") /\
  fetch "POST" (VArr (pre ++ VObj props :: post))
  = errorResponse "Quantity must be a positive number".
Proof.
  intros Ht Hm Hmo Hq Hpre.
  assert (Hv : validateServer (VObj props)
               = inl (Error "Quantity must be a positive number")).
  { unfold validateServer, requiredFields, checkFields, get.
    cbn [typeofObject isNull negb orb].
    rewrite Ht, Hm, Hmo. cbn [toBoolean negb].
    destruct Hq as [-> | ->]; reflexivity. }
  assert (Hc : calculateEstimation (pre ++ VObj props :: post)
               = inl (Error "Quantity must be a positive number")).
  { apply calculateEstimation_first_failure;
      [exact Hpre | apply estimate_invalid, Hv]. }
  repeat split; [exact Hv | exact Hc |].
  apply (fetch_error _ _ Hc).
Qed.

Lemma bad_quantity_rejected_witness :
  (validateServer negativeQuantity
   = inl (Error "Quantity must be a positive number") /\
   calculateEstimation ([] ++ negativeQuantity :: [])
   = inl (Error "Quantity must be a positive number") /\
   fetch "POST" (VArr ([] ++ negativeQuantity :: []))
   = errorResponse "Quantity must be a positive number") /\
  (validateServer
     (record (VStr "rack") (VStr "HP") (VStr "DL380") (VStr "five"))
   = inl (Error "Quantity must be a positive number") /\
   calculateEstimation
     ([dellRack] ++
      record (VStr "rack") (VStr "HP") (VStr "DL380") (VStr "five")
      :: [unknownBlade])
   = inl (Error "Quantity must be a positive number") /\
   fetch "POST"
     (VArr ([dellRack] ++
            record (VStr "rack") (VStr "HP") (VStr "DL380") (VStr "five")
            :: [unknownBlade]))
   = errorResponse "Quantity must be a positive number").
Proof.
  split.
  - apply (bad_quantity_rejected
             [("type", VStr "rack"); ("manufacturer", VStr "Dell");
              ("model", VStr "R740"); ("quantity", VNum (-1))] [] []);
      try reflexivity.
    + left; reflexivity.
    + constructor.
  - apply (bad_quantity_rejected
             [("type", VStr "rack"); ("manufacturer", VStr "HP");
              ("model", VStr "DL380"); ("quantity", VStr "five")]
             [dellRack] [unknownBlade]);
      try reflexivity.
    + right; reflexivity.
    + repeat constructor. eexists; reflexivity.
Defined.

(** ** Examples of the specification *)

(** C8.  On the empty array the engine succeeds with [totalTime = 0], an
    empty breakdown and complexity "Low". *)
Theorem empty_batch :
  calculateEstimation []
  = inr {| totalTime := 0; breakdownByServer := []; complexity := "Low" |}
  /\ fetch "POST" (VArr [])
     = {| status := 200; headers := jsonHeaders;
          body := BodyResult {| totalTime := 0; breakdownByServer := [];
                                complexity := "Low" |} |}.
Proof.
  split; reflexivity.
Qed.

(** C9.  One Dell rack server takes 2.16 hours, total 2.16, complexity
    "Low"; five blade servers of the unknown manufacturer "Unknown" get
    the factor 1 and take 22.5 hours, complexity "High". *)
Theorem specification_examples :
  calculateEstimation [dellRack]
  = inr {| totalTime := 2.16;
           breakdownByServer :=
             [{| type := Some (VStr "rack");
                 manufacturer := Some (VStr "Dell");
                 model := Some (VStr "R740");
                 quantity := Some (VNum 1);
                 estimatedTime := 2.16 |}];
           complexity := "Low" |}
  /\ orOne (getManufacturer (KeyString "Unknown")) = PNumber 1
  /\ calculateEstimation [unknownBlade]
     = inr {| totalTime := 22.5;
              breakdownByServer :=
                [{| type := Some (VStr "blade");
                    manufacturer := Some (VStr "Unknown");
                    model := Some (VStr "X");
                    quantity := Some (VNum 5);
                    estimatedTime := 22.5 |}];
              complexity := "High" |}.
Proof.
  repeat split; vm_compute; reflexivity.
Qed.

(** ** Sign of the estimated times *)

(** What a successful run of the callback has computed; in particular
    the two branches of [estimate] marked unreachable are not taken. *)
Lemma estimate_inr server e :
  estimate server = inr e ->
  exists props tf k q,
    server = VObj props /\
    (tf = rack \/ tf = blade \/ tf = custom) /\
    toPropertyKey (lookup "manufacturer" props) = inr k /\
    lookup "quantity" props = Some (VNum q) /\
    (0 <? q) = true /\
    estimatedTime e
    = baseTime tf * toNumber (orOne (getManufacturer k))
      * complexityMultiplier tf * q.
Proof.
  intros H. unfold estimate in H.
  apply bind_inr in H as ([] & Hv & H).
  apply validateServer_inr in Hv
    as (props & q & -> & Hty & _ & _ & Hq & Hle & Hnz).
  unfold get in H. rewrite Hq in H.
  assert (Htf : exists tf,
             (tf = rack \/ tf = blade \/ tf = custom) /\
             match lookup "type" props with
             | Some (VStr t) => ESTIMATION_FACTORS t
             | _ => None
             end = Some tf).
  { destruct Hty as [-> | [-> | ->]];
      [exists rack | exists blade | exists custom]; auto. }
  destruct Htf as (tf & Htf & Heq). rewrite Heq in H.
  apply bind_inr in H as (k & Hk & H). injection H as <-.
  exists props, tf, k, q. repeat split; auto.
  apply quantity_positive; assumption.
Qed.

Lemma factor_values k :
  getManufacturer k <> PInherited ->
  toNumber (orOne (getManufacturer k)) = 0.9 \/
  toNumber (orOne (getManufacturer k)) = 1 \/
  toNumber (orOne (getManufacturer k)) = 1.1 \/
  toNumber (orOne (getManufacturer k)) = 1.2.
Proof.
  destruct k as [s |]; [| right; left; reflexivity].
  unfold getManufacturer, manufacturers, lookup.
  destruct (String.eqb s "Dell"); [left; reflexivity |].
  destruct (String.eqb s "HP"); [right; left; reflexivity |].
  destruct (String.eqb s "Lenovo"); [right; right; left; reflexivity |].
  destruct (String.eqb s "SuperMicro");
    [right; right; right; reflexivity |].
  destruct (existsb (String.eqb s) objectPrototype);
    [intros H; contradiction H; reflexivity | right; left; reflexivity].
Qed.

(** Every product of a base time, a manufacturer factor and a complexity
    multiplier of the table is at least 1 (the least is 2.16). *)
Lemma factors_atLeastOne tf k :
  tf = rack \/ tf = blade \/ tf = custom ->
  getManufacturer k <> PInherited ->
  (1 <=? baseTime tf * toNumber (orOne (getManufacturer k))
         * complexityMultiplier tf) = true.
Proof.
  intros Htf Hk.
  destruct (factor_values k Hk) as [-> | [-> | [-> | ->]]];
    destruct Htf as [-> | [-> | ->]]; reflexivity.
Qed.

(** Apart from the manufacturers that name a member of
    [Object.prototype], every estimated time is greater than 0. *)
Lemma estimate_positive server e :
  ownManufacturer server ->
  estimate server = inr e ->
  (0 <? estimatedTime e) = true.
Proof.
  intros Hown H.
  destruct (estimate_inr _ _ H)
    as (props & tf & k & q & -> & Htf & Hk & _ & Hq & ->).
  apply mul_positive; [| exact Hq].
  apply factors_atLeastOne; [exact Htf | apply Hown, Hk].
Qed.

Lemma mapServers_positive servers :
  Forall ownManufacturer servers ->
  forall total breakdown total',
    (0 <=? total) = true ->
    mapServers servers total = inr (breakdown, total') ->
    Forall (fun e => (0 <? estimatedTime e) = true) breakdown /\
    (0 <=? total') = true /\
    (servers <> [] -> (0 <? total') = true).
Proof.
  induction 1 as [| x rest Hx _ IH]; simpl;
    intros total breakdown total' Htotal H.
  - injection H as <- <-. repeat split; [constructor | assumption |].
    intros Hne; contradiction Hne; reflexivity.
  - apply bind_inr in H as (e & He & H).
    apply bind_inr in H as ([l t] & Hrest & H).
    injection H as <- <-. simpl.
    pose proof (estimate_positive _ _ Hx He) as Hpos.
    pose proof (add_positive _ _ Htotal Hpos) as Hsum.
    destruct (IH _ _ _ (ltb_leb_zero _ Hsum) Hrest) as (Hl & Ht & Hne).
    repeat split; [constructor; assumption | assumption |].
    intros _. destruct rest as [| y rest'].
    + simpl in Hrest. injection Hrest as <- <-. exact Hsum.
    + apply Hne. discriminate.
Qed.

(** The statement of C10 holds on every batch in which no manufacturer
    names a member of [Object.prototype]. *)
Lemma calculateEstimation_positive servers r :
  Forall ownManufacturer servers ->
  calculateEstimation servers = inr r ->
  Forall (fun e => (0 <? estimatedTime e) = true) (breakdownByServer r) /\
  (0 <=? totalTime r) = true /\
  (servers <> [] -> (0 <? totalTime r) = true).
Proof.
  intros Hown H. unfold calculateEstimation in H.
  apply bind_inr in H as ([l t] & Hmap & H). injection H as <-. simpl.
  apply (mapServers_positive _ Hown 0 l t); [reflexivity | exact Hmap].
Qed.

(** C10 (fails on the code).  The batch made of the single record
    [{type: "rack", manufacturer: "constructor", model: "X", quantity: 1}]
    is accepted, and its only estimated time and its total time are NaN:
    neither is greater than 0, and the total is not at least 0. *)
Theorem estimatedTime_not_positive :
  exists r e,
    calculateEstimation [constructorRack] = inr r /\
    breakdownByServer r = [e] /\
    (0 <? estimatedTime e) = false /\
    (0 <? totalTime r) = false /\
    (0 <=? totalTime r) = false.
Proof.
  do 2 eexists. split; [reflexivity |].
  split; [reflexivity |]. repeat split.
Qed.

(** * Further properties of the worker *)

(** ** Validation *)

Lemma positive_quantity q :
  (0 <? q) = true -> numberToBoolean q = true /\ (q <=? 0) = false.
Proof.
  unfold numberToBoolean, is_nan.
  rewrite leb_spec, ltb_spec, !FloatAxioms.eqb_spec.
  change (Prim2SF 0) with (S754_zero false).
  unfold SFeqb, SFleb, SFltb, SFcompare.
  destruct (Prim2SF q) as [s | [|] | | [|] m e]; simpl;
    try discriminate; intros _; split; try reflexivity.
  rewrite Z.compare_refl, Pos.compare_cont_refl. reflexivity.
Qed.

(** [validateServer] accepts exactly the objects whose type is "rack",
    "blade" or "custom", whose manufacturer and model are truthy and whose
    quantity is a number greater than 0. *)
Theorem validateServer_accepts_iff server :
  validateServer server = inr tt <-> validRecord server.
Proof.
  split.
  - intros H.
    destruct (validateServer_inr _ _ H)
      as (props & q & -> & Hty & Hm & Hmo & Hq & Hle & Hnz).
    exists props, q. repeat split; auto using quantity_positive.
  - intros (props & q & -> & Hty & Hm & Hmo & Hq & Hpos).
    destruct (positive_quantity _ Hpos) as [Hnz Hle].
    unfold validateServer, requiredFields, checkFields, get.
    cbn [typeofObject isNull negb orb].
    rewrite Hm, Hmo, Hq. cbn [toBoolean]. rewrite Hnz, Hle.
    destruct Hty as [-> | [-> | ->]]; reflexivity.
Qed.

Lemma validateServer_accepts_iff_witness :
  validateServer unknownBlade = inr tt.
Proof.
  apply (proj2 (validateServer_accepts_iff unknownBlade)).
  exists [("type", VStr "blade"); ("manufacturer", VStr "Unknown");
          ("model", VStr "X"); ("quantity", VNum 5)], 5.
  repeat split; auto.
Defined.



(** The type is checked before the quantity: an object with four truthy
    fields whose type is not exactly "rack", "blade" or "custom" is
    rejected with "Invalid server type", whatever its quantity. *)
Theorem invalid_type_rejected props :
  Forall (fun f => toBoolean (lookup f props) = true) requiredFields ->
  (forall t, lookup "type" props = Some (VStr t) ->
             t <> "rack" /\ t <> "blade" /\ t <> "custom") ->
  validateServer (VObj props) = inl (Error "Invalid server type").
Proof.
  intros Hall Hty.
  assert (Hc : checkFields (VObj props) requiredFields = inr tt).
  { revert Hall. generalize requiredFields.
    induction 1 as [| f rest Hf _ IH]; simpl; [reflexivity |].
    rewrite Hf. exact IH. }
  unfold validateServer. cbn [typeofObject isNull negb orb].
  rewrite Hc. cbn [bind].
  assert (Hinc : includes ["rack"; "blade"; "custom"]
                   (get (VObj props) "type") = false).
  { simpl get. destruct (lookup "type" props) as [[| | | t | |] |];
      try reflexivity.
    destruct (Hty t eq_refl) as (H1 & H2 & H3). simpl.
    apply String.eqb_neq in H1, H2, H3. rewrite H1, H2, H3. reflexivity. }
  rewrite Hinc. reflexivity.
Qed.

Lemma invalid_type_rejected_witness :
  validateServer
    (record (VStr "Rack") (VStr "Dell") (VStr "R740") (VNum (-1)))
  = inl (Error "Invalid server type")
  /\ validateServer
       (record (VNum 1) (VStr "Dell") (VStr "R740") (VStr "five"))
     = inl (Error "Invalid server type").
Proof.
  split.
  - apply (invalid_type_rejected
             [("type", VStr "Rack"); ("manufacturer", VStr "Dell");
              ("model", VStr "R740"); ("quantity", VNum (-1))]).
    + repeat constructor.
    + intros t H. injection H as <-. repeat split; discriminate.
  - apply (invalid_type_rejected
             [("type", VNum 1); ("manufacturer", VStr "Dell");
              ("model", VStr "R740"); ("quantity", VStr "five")]).
    + repeat constructor.
    + intros t H. discriminate.
Defined.

(** An element of the batch that is not an object literal is rejected:
    [null] and the primitive values with "Invalid server object", an array
    (whose [typeof] is 'object') with "Missing required field: type". *)
Theorem non_object_rejected server :
  (forall props, server <> VObj props) ->
  validateServer server
  = inl (Error match server with
               | VArr _ => "Missing required field: type"
               | _ => "Invalid server object"
               end).
Proof.
  intros H. destruct server as [| b | n | s | elems | props];
    try reflexivity.
  contradiction (H props). reflexivity.
Qed.

Lemma non_object_rejected_witness :
  validateServer (VArr [VStr "rack"; VStr "Dell"; VStr "R740"; VNum 1])
  = inl (Error "Missing required field: type")
  /\ validateServer (VStr "rack") = inl (Error "Invalid server object").
Proof.
  split.
  - apply (non_object_rejected
             (VArr [VStr "rack"; VStr "Dell"; VStr "R740"; VNum 1])).
    discriminate.
  - apply (non_object_rejected (VStr "rack")). discriminate.
Defined.

(** ** The breakdown of a batch *)

Lemma estimate_echoes server e : estimate server = inr e -> echoes server e.
Proof.
  unfold estimate. intros H.
  apply bind_inr in H as ([] & _ & H).
  apply bind_inr in H as (k & _ & H).
  destruct (match get server "type" with
            | Some (VStr t) => ESTIMATION_FACTORS t
            | _ => None
            end); [| discriminate].
  injection H as <-. repeat split.
Qed.

Lemma mapServers_pointwise servers :
  forall total breakdown total',
    mapServers servers total = inr (breakdown, total') ->
    Forall2 (fun server e => estimate server = inr e) servers breakdown.
Proof.
  induction servers as [| x rest IH]; simpl;
    intros total breakdown total' H.
  - injection H as <- <-. constructor.
  - apply bind_inr in H as (e & He & H).
    apply bind_inr in H as ([l t] & Hrest & H).
    injection H as <- <-. constructor; [exact He | exact (IH _ _ _ Hrest)].
Qed.

(** The running total does not influence the estimates: from another
    initial total the same breakdown is produced, and the final total is
    the initial one plus the estimated times, added in order. *)
Lemma mapServers_from servers :
  forall total breakdown total',
    mapServers servers total = inr (breakdown, total') ->
    forall total2,
      mapServers servers total2
      = inr (breakdown,
             fold_left (fun acc e => acc + estimatedTime e) breakdown total2).
Proof.
  induction servers as [| x rest IH]; simpl;
    intros total breakdown total' H total2.
  - injection H as <- <-. reflexivity.
  - apply bind_inr in H as (e & He & H).
    apply bind_inr in H as ([l t] & Hrest & H).
    injection H as <- <-. rewrite He. cbn [bind].
    rewrite (IH _ _ _ Hrest (total2 + estimatedTime e)). reflexivity.
Qed.

Lemma mapServers_app a b :
  forall total breakdown total',
    mapServers (a ++ b) total = inr (breakdown, total') ->
    exists la ta lb,
      mapServers a total = inr (la, ta) /\
      mapServers b ta = inr (lb, total') /\
      breakdown = (la ++ lb)%list.
Proof.
  induction a as [| x rest IH]; simpl; intros total breakdown total' H.
  - exists [], total, breakdown. auto.
  - apply bind_inr in H as (e & He & H).
    apply bind_inr in H as ([l t] & Hrest & H).
    injection H as <- <-.
    destruct (IH _ _ _ Hrest) as (la & ta & lb & Ha & Hb & ->).
    exists (e :: la), ta, lb. rewrite He. cbn [bind]. rewrite Ha.
    cbn [bind fst snd]. auto.
Qed.

Lemma mapServers_estimated servers :
  Forall estimated servers ->
  forall total, exists r, mapServers servers total = inr r.
Proof.
  induction 1 as [| x rest [e He] _ IH]; intros total; simpl.
  - eauto.
  - rewrite He. cbn [bind].
    destruct (IH (total + estimatedTime e)) as [r Hr].
    rewrite Hr. cbn [bind]. eauto.
Qed.

(** On success the breakdown has one entry per record, in the order of
    the input; each entry is what the callback computes for its record
    alone, whatever the other records of the batch, and repeats the type,
    manufacturer, model and quantity of the record. *)
Theorem breakdown_pointwise servers r :
  calculateEstimation servers = inr r ->
  Forall2 (fun server e => estimate server = inr e /\ echoes server e)
    servers (breakdownByServer r)
  /\ length (breakdownByServer r) = length servers.
Proof.
  unfold calculateEstimation. intros H.
  apply bind_inr in H as ([l t] & Hmap & H). injection H as <-. simpl.
  apply mapServers_pointwise in Hmap.
  split.
  - induction Hmap as [| x e xs es He _ IH]; constructor;
      auto using estimate_echoes.
  - symmetry. apply (Forall2_length Hmap).
Qed.

Lemma breakdown_pointwise_witness :
  exists r,
    calculateEstimation [unknownBlade; dellRack] = inr r /\
    Forall2 (fun server e => estimate server = inr e /\ echoes server e)
      [unknownBlade; dellRack] (breakdownByServer r) /\
    length (breakdownByServer r) = 2%nat.
Proof.
  eexists. split; [reflexivity |].
  apply (breakdown_pointwise [unknownBlade; dellRack]). reflexivity.
Defined.


(** When the manufacturer is a string (or any value that is not an array
    or an object), the callback succeeds exactly on the records that pass
    validation; so a batch of such records is accepted exactly when all
    its records are valid. *)
Lemma primitiveManufacturer_estimated server :
  primitiveManufacturer server ->
  estimated server <-> validateServer server = inr tt.
Proof.
  intros Hprim. split.
  - intros [e H]. unfold estimate in H.
    apply bind_inr in H as ([] & Hv & _). exact Hv.
  - intros Hv.
    destruct (validateServer_inr _ _ Hv)
      as (props & q & -> & Hty & _ & _ & Hq & _ & _).
    unfold estimated, estimate. rewrite Hv. cbn [bind].
    unfold primitiveManufacturer in Hprim. unfold get in *.
    assert (Hk : exists k,
               toPropertyKey (lookup "manufacturer" props) = inr k).
    { destruct (lookup "manufacturer" props) as [[| b | n | s | |] |];
        simpl; eauto; contradiction. }
    destruct Hk as [k ->]. cbn [bind].
    destruct Hty as [-> | [-> | ->]]; eexists; reflexivity.
Qed.

Theorem primitive_batch_accepted_iff servers :
  Forall primitiveManufacturer servers ->
  (exists r, calculateEstimation servers = inr r) <->
  Forall (fun server => validateServer server = inr tt) servers.
Proof.
  intros Hprim.
  assert (Hiff : Forall estimated servers <->
                 Forall (fun server => validateServer server = inr tt)
                   servers).
  { induction Hprim as [| x rest Hx _ IH].
    - split; constructor.
    - split; intros H; inversion H; subst; constructor;
        try (apply IH; assumption);
        apply (primitiveManufacturer_estimated _ Hx); assumption. }
  rewrite <- Hiff. unfold calculateEstimation. split.
  - intros [r H]. apply bind_inr in H as ([l t] & Hmap & _).
    apply mapServers_pointwise in Hmap. clear Hprim Hiff.
    induction Hmap as [| x e xs es He _ IH]; constructor;
      [exists e; exact He | exact IH].
  - intros H. destruct (mapServers_estimated _ H 0) as [p Hp].
    rewrite Hp. cbn [bind]. eauto.
Qed.

Lemma primitive_batch_accepted_iff_witness :
  exists r, calculateEstimation [dellRack; constructorRack] = inr r.
Proof.
  apply (proj2 (primitive_batch_accepted_iff [dellRack; constructorRack]
                  ltac:(repeat constructor))).
  repeat constructor.
Defined.

(** Batches compose: a concatenation is accepted exactly when both parts
    are; its breakdown is the concatenation of the two breakdowns, and its
    total continues the running sum of the first part through the
    estimated times of the second. *)
Theorem concatenated_batches a b :
  (forall r,
     calculateEstimation (a ++ b) = inr r ->
     exists ra rb,
       calculateEstimation a = inr ra /\
       calculateEstimation b = inr rb /\
       breakdownByServer r
       = (breakdownByServer ra ++ breakdownByServer rb)%list /\
       totalTime r
       = fold_left (fun acc e => acc + estimatedTime e)
           (breakdownByServer rb) (totalTime ra)) /\
  (forall ra rb,
     calculateEstimation a = inr ra ->
     calculateEstimation b = inr rb ->
     exists r, calculateEstimation (a ++ b) = inr r).
Proof.
  unfold calculateEstimation. split.
  - intros r H. apply bind_inr in H as ([l t] & Hmap & H).
    injection H as <-. simpl.
    destruct (mapServers_app _ _ _ _ _ Hmap)
      as (la & ta & lb & Ha & Hb & ->).
    rewrite Ha, (mapServers_from _ _ _ _ Hb 0). cbn [bind].
    do 2 eexists. repeat split. simpl.
    apply (mapServers_total _ _ _ _ Hb).
  - intros ra rb Ha Hb.
    apply bind_inr in Ha as ([la ta] & Ha & _).
    apply bind_inr in Hb as ([lb tb] & Hb & _).
    apply mapServers_pointwise in Ha, Hb.
    assert (Hall : Forall estimated (a ++ b)).
    { apply Forall_app. split.
      - clear Hb. induction Ha; constructor; [eexists |]; eassumption.
      - clear Ha. induction Hb; constructor; [eexists |]; eassumption. }
    destruct (mapServers_estimated _ Hall 0) as [p Hp].
    rewrite Hp. cbn [bind]. eauto.
Qed.

Lemma concatenated_batches_witness :
  exists r, calculateEstimation ([dellRack] ++ [unknownBlade]) = inr r.
Proof.
  apply (proj2 (concatenated_batches [dellRack] [unknownBlade])
           {| totalTime := 2.16;
              breakdownByServer :=
                [{| type := Some (VStr "rack");
                    manufacturer := Some (VStr "Dell");
                    model := Some (VStr "R740");
                    quantity := Some (VNum 1);
                    estimatedTime := 2.16 |}];
              complexity := "Low" |}
           {| totalTime := 22.5;
              breakdownByServer :=
                [{| type := Some (VStr "blade");
                    manufacturer := Some (VStr "Unknown");
                    model := Some (VStr "X");
                    quantity := Some (VNum 5);
                    estimatedTime := 22.5 |}];
              complexity := "High" |});
    reflexivity.
Defined.

(** Properties of a record other than the four required fields play no
    part: two objects that agree on the four fields are validated and
    estimated alike. *)
Theorem other_properties_ignored props props' :
  (forall f, In f requiredFields -> lookup f props = lookup f props') ->
  validateServer (VObj props) = validateServer (VObj props') /\
  estimate (VObj props) = estimate (VObj props').
Proof.
  intros H.
  assert (Ht := H "type" ltac:(simpl; auto)).
  assert (Hm := H "manufacturer" ltac:(simpl; auto)).
  assert (Hmo := H "model" ltac:(simpl; auto)).
  assert (Hq := H "quantity" ltac:(simpl; auto)).
  assert (Hv : validateServer (VObj props) = validateServer (VObj props')).
  { unfold validateServer, requiredFields, checkFields, get.
    rewrite Ht, Hm, Hmo, Hq. reflexivity. }
  split; [exact Hv |].
  unfold estimate. rewrite Hv. unfold get.
  rewrite Ht, Hm, Hmo, Hq. reflexivity.
Qed.

Lemma other_properties_ignored_witness :
  estimate (VObj [("rackUnits", VNum 2); ("type", VStr "rack");
                  ("manufacturer", VStr "Dell"); ("model", VStr "R740");
                  ("quantity", VNum 1); ("note", VNull)])
  = estimate dellRack.
Proof.
  apply (other_properties_ignored
           [("rackUnits", VNum 2); ("type", VStr "rack");
            ("manufacturer", VStr "Dell"); ("model", VStr "R740");
            ("quantity", VNum 1); ("note", VNull)]
           [("type", VStr "rack"); ("manufacturer", VStr "Dell");
            ("model", VStr "R740"); ("quantity", VNum 1)]).
  intros f Hf. simpl in Hf.
  destruct Hf as [<- | [<- | [<- | [<- | []]]]]; reflexivity.
Defined.

(** ** The request handler *)








(** ** Monotonicity of the tiers *)

Lemma SFltb_leb_trans x y z :
  SFltb x y = true -> SFleb y z = true -> SFltb x z = true.
Proof.
  unfold SFltb, SFleb, SFcompare.
  change (@PosDef.Pos.compare_cont Eq) with Pos.compare.
  destruct x as [sx | sx | | sx mx ex], y as [sy | sy | | sy my ey],
    z as [sz | sz | | sz mz ez];
    try discriminate; try reflexivity;
    try (destruct sx; try discriminate; try reflexivity);
    try (destruct sy; try discriminate; try reflexivity);
    try (destruct sz; try discriminate; try reflexivity);
    destruct (Z.compare_spec ex ey), (Z.compare_spec ey ez),
      (Z.compare_spec ex ez);
    try discriminate; try reflexivity; try (exfalso; lia);
    subst;
    destruct (Pos.compare_spec mx my), (Pos.compare_spec my mz),
      (Pos.compare_spec mx mz);
    simpl; try discriminate; try reflexivity; try (exfalso; lia).
Qed.

Lemma ltb_leb_trans x y z :
  (x <? y) = true -> (y <=? z) = true -> (x <? z) = true.
Proof.
  rewrite !ltb_spec, leb_spec. apply SFltb_leb_trans.
Qed.

(** A larger total never gives a lower tier. *)
Theorem complexity_monotone t1 t2 :
  (t1 <=? t2) = true ->
  (tierRank (complexityOf t1) <= tierRank (complexityOf t2))%nat.
Proof.
  intros Hle. unfold complexityOf.
  destruct (20 <? t1) eqn:H20.
  - rewrite (ltb_leb_trans _ _ _ H20 Hle). apply le_n.
  - destruct (10 <? t1) eqn:H10.
    + rewrite (ltb_leb_trans _ _ _ H10 Hle).
      destruct (20 <? t2); [exact (le_S 1 1 (le_n 1)) | exact (le_n 1)].
    + apply Nat.le_0_l.
Qed.

Lemma complexity_monotone_witness :
  (tierRank (complexityOf 10.0001) <= tierRank (complexityOf 22.5))%nat.
Proof.
  apply (complexity_monotone 10.0001 22.5). reflexivity.
Defined.

(** ** Manufacturers of the table *)

Lemma manufacturers_own m n :
  lookup m manufacturers = Some n ->
  existsb (String.eqb m) objectPrototype = false /\
  manufacturerFactor m = n.
Proof.
  unfold manufacturerFactor. intros H. rewrite H. split; [| reflexivity].
  revert H. unfold manufacturers, lookup.
  destruct (String.eqb_spec m "Dell") as [-> | _]; [reflexivity |].
  destruct (String.eqb_spec m "HP") as [-> | _]; [reflexivity |].
  destruct (String.eqb_spec m "Lenovo") as [-> | _]; [reflexivity |].
  destruct (String.eqb_spec m "SuperMicro") as [-> | _]; [reflexivity |].
  discriminate.
Qed.

(** For a manufacturer of the table (Dell, HP, Lenovo, SuperMicro) a valid
    record is always estimated, and its time is the base time of its type
    times the factor of the table times the complexity multiplier times
    the quantity. *)
Theorem known_manufacturer_time props m n :
  validateServer (VObj props) = inr tt ->
  lookup "manufacturer" props = Some (VStr m) ->
  lookup m manufacturers = Some n ->
  exists t tf q e,
    lookup "type" props = Some (VStr t) /\
    ESTIMATION_FACTORS t = Some tf /\
    lookup "quantity" props = Some (VNum q) /\
    estimate (VObj props) = inr e /\
    estimatedTime e = baseTime tf * n * complexityMultiplier tf * q.
Proof.
  intros Hv Hm Hn.
  destruct (manufacturers_own _ _ Hn) as [Hown Hfactor].
  destruct (estimate_formula props m Hv Hm Hown)
    as (t & tf & q & e & Ht & Htf & Hq & He & Htime).
  exists t, tf, q, e. rewrite <- Hfactor. auto.
Qed.

Lemma known_manufacturer_time_witness :
  exists t tf q e,
    lookup "type" [("type", VStr "custom"); ("manufacturer", VStr "Lenovo");
                   ("model", VStr "SR950"); ("quantity", VNum 3)]
    = Some (VStr t) /\
    ESTIMATION_FACTORS t = Some tf /\
    lookup "quantity" [("type", VStr "custom");
                       ("manufacturer", VStr "Lenovo");
                       ("model", VStr "SR950"); ("quantity", VNum 3)]
    = Some (VNum q) /\
    estimate (VObj [("type", VStr "custom"); ("manufacturer", VStr "Lenovo");
                    ("model", VStr "SR950"); ("quantity", VNum 3)])
    = inr e /\
    estimatedTime e = baseTime tf * 1.1 * complexityMultiplier tf * q.
Proof.
  apply (known_manufacturer_time
           [("type", VStr "custom"); ("manufacturer", VStr "Lenovo");
            ("model", VStr "SR950"); ("quantity", VNum 3)] "Lenovo" 1.1);
    reflexivity.
Defined.

(** ** Accepted batches *)

(** Every entry of the breakdown of an accepted batch has a type among
    "rack", "blade" and "custom", a truthy manufacturer and model, and a
    quantity that is a number greater than 0. *)
Theorem breakdown_entries_valid servers r :
  calculateEstimation servers = inr r ->
  Forall (fun e =>
            (type e = Some (VStr "rack") \/ type e = Some (VStr "blade") \/
             type e = Some (VStr "custom")) /\
            toBoolean (manufacturer e) = true /\
            toBoolean (model e) = true /\
            exists q, quantity e = Some (VNum q) /\ (0 <? q) = true)
    (breakdownByServer r).
Proof.
  unfold calculateEstimation. intros H.
  apply bind_inr in H as ([l t] & Hmap & H). injection H as <-. simpl.
  apply mapServers_pointwise in Hmap.
  induction Hmap as [| x e xs es He _ IH]; constructor; [| exact IH].
  destruct (estimate_echoes _ _ He) as (-> & -> & -> & ->).
  unfold estimate in He. apply bind_inr in He as ([] & Hv & _).
  destruct (validateServer_inr _ _ Hv)
    as (props & q & -> & Hty & Hm & Hmo & Hq & Hle & Hnz).
  simpl get. repeat split; auto.
  exists q. auto using quantity_positive.
Qed.

Lemma breakdown_entries_valid_witness :
  exists r,
    calculateEstimation [constructorRack; unknownBlade] = inr r /\
    Forall (fun e =>
              (type e = Some (VStr "rack") \/ type e = Some (VStr "blade") \/
               type e = Some (VStr "custom")) /\
              toBoolean (manufacturer e) = true /\
              toBoolean (model e) = true /\
              exists q, quantity e = Some (VNum q) /\ (0 <? q) = true)
      (breakdownByServer r).
Proof.
  eexists. split; [reflexivity |].
  apply (breakdown_entries_valid [constructorRack; unknownBlade]).
  reflexivity.
Defined.

(** On an accepted batch whose manufacturers are strings that do not name
    a member of [Object.prototype], every estimated time is greater than
    0, the total is at least 0, and it is greater than 0 when the batch is
    not empty: no product underflows to 0 and no sum cancels. *)
Theorem named_manufacturers_positive servers r :
  Forall (fun server =>
            exists m,
              get server "manufacturer" = Some (VStr m) /\
              existsb (String.eqb m) objectPrototype = false) servers ->
  calculateEstimation servers = inr r ->
  Forall (fun e => (0 <? estimatedTime e) = true) (breakdownByServer r) /\
  (0 <=? totalTime r) = true /\
  (servers <> [] -> (0 <? totalTime r) = true).
Proof.
  intros Hnames. apply calculateEstimation_positive.
  induction Hnames as [| x rest (m & Hm & Hown) _ IH]; constructor;
    [| exact IH].
  intros k Hk. rewrite Hm in Hk. injection Hk as <-.
  unfold getManufacturer. rewrite Hown.
  destruct (lookup m manufacturers); discriminate.
Qed.

Lemma named_manufacturers_positive_witness :
  exists r,
    calculateEstimation [dellRack; unknownBlade] = inr r /\
    Forall (fun e => (0 <? estimatedTime e) = true) (breakdownByServer r) /\
    (0 <=? totalTime r) = true /\
    ([dellRack; unknownBlade] <> [] -> (0 <? totalTime r) = true).
Proof.
  eexists. split; [reflexivity |].
  apply (named_manufacturers_positive [dellRack; unknownBlade]).
  - repeat constructor; eexists; split; reflexivity.
  - reflexivity.
Defined.
